(** * Google Flights URL builder (SerpAPI.py): model and properties

    A shallow embedding of [src/SerpAPI.py]: the request normaliser
    ([_csv_to_list], [_parse_time_window], the code validators), the
    single-link builder [_build_single_url], the public entry point
    [build_gf_urls] with its multi-city branch, the fallback projector
    [build_serpapi_params] and [_serpapi_only_flags].

    Conventions.
    - Python [str] is [string] (a sequence of bytes; the model covers ASCII
      text, which is what the place-code grammar and the numeric notations
      accept).  [Optional[str]] is [option string].
    - Python [int] is [Z].
    - A raised exception is the left injection of a sum; the exception
      classes and messages the module can produce are enumerated in
      [error].
    - The payload encoder [TFSData.from_interface(..).as_b64().decode()],
      [json.loads], [date.fromisoformat] and the iteration order of [set]
      are not code of this module: they are Section variables. *)

From stdpp Require Import gmap strings list sorting.
From Stdlib Require Import ZArith Ascii.

Open Scope string_scope.
Open Scope list_scope.
Open Scope Z_scope.

(** ** Python string primitives *)

Module Py.

(** [str.split(sep)] for a one-character separator: never returns []. *)
Fixpoint split (sep : ascii) (s : string) : list string :=
  match s with
  | EmptyString => [EmptyString]
  | String c s' =>
      if Ascii.eqb c sep then EmptyString :: split sep s'
      else match split sep s' with
           | p :: ps => String c p :: ps
           | [] => [String c EmptyString]
           end
  end.

(** [sep.join(parts)]. *)
Fixpoint join (sep : string) (parts : list string) : string :=
  match parts with
  | [] => EmptyString
  | [p] => p
  | p :: ps => p +:+ sep +:+ join sep ps
  end.

(** The ASCII characters [str.isspace] accepts: TAB..CR, FS..US, SPACE. *)
Definition isspace (c : ascii) : bool :=
  let n := N_of_ascii c in
  ((9 <=? n) && (n <=? 13) || (28 <=? n) && (n <=? 32))%N.

Fixpoint lstrip (s : string) : string :=
  match s with
  | EmptyString => EmptyString
  | String c s' => if isspace c then lstrip s' else s
  end.

Fixpoint rstrip (s : string) : string :=
  match s with
  | EmptyString => EmptyString
  | String c s' =>
      match rstrip s' with
      | EmptyString => if isspace c then EmptyString else String c EmptyString
      | r => String c r
      end
  end.

(** [str.strip()]. *)
Definition strip (s : string) : string := rstrip (lstrip s).

(** Truthiness of a [str] and of an [Optional[str]]. *)
Definition truthy_str (s : string) : bool :=
  match s with EmptyString => false | _ => true end.

Definition truthy (o : option string) : bool :=
  match o with Some s => truthy_str s | None => false end.

Definition digit_val (c : ascii) : option Z :=
  let n := N_of_ascii c in
  if ((48 <=? n) && (n <=? 57))%N then Some (Z.of_N n - 48) else None.

(** Decimal digits with single underscores between digits, as [int]
    accepts them.  [prev] tells whether the previous character was a
    digit. *)
Fixpoint int_digits (acc : Z) (prev : bool) (s : string) : option Z :=
  match s with
  | EmptyString => if prev then Some acc else None
  | String c s' =>
      if Ascii.eqb c "_"%char
      then (if prev then int_digits acc false s' else None)
      else match digit_val c with
           | Some d => int_digits (10 * acc + d) true s'
           | None => None
           end
  end.

(** [int(s)] on a [str], base 10: surrounding white space, an optional
    sign, digits.  [None] stands for the [ValueError] it raises.  (The
    interpreter's optional cap on the number of digits is not modelled.) *)
Definition int (s : string) : option Z :=
  match strip s with
  | EmptyString => None
  | String c r =>
      if Ascii.eqb c "+"%char then int_digits 0 false r
      else if Ascii.eqb c "-"%char then Z.opp <$> int_digits 0 false r
      else int_digits 0 false (String c r)
  end.

End Py.

(** ** Helpers and validation (SerpAPI.py, lines 52-89) *)

(** [_csv_to_list]: trimmed, non-empty parts, in input order. *)
Definition _csv_to_list (s : option string) : list string :=
  match s with
  | None => []
  | Some s =>
      if negb (Py.truthy_str s) then []
      else omap (fun p => if Py.truthy_str (Py.strip p)
                          then Some (Py.strip p) else None)
                (Py.split ","%char s)
  end.

Definition window : Type := Z * Z.

(** [_parse_time_window]: a pair of optional windows; the function has no
    raising path (the [ValueError] of [int] is caught inside). *)
Definition _parse_time_window (win : option string)
  : option window * option window :=
  if negb (Py.truthy win) then (None, None)
  else
    let parts := Py.strip <$> Py.split ","%char (default EmptyString win) in
    match mapM Py.int parts with
    | None => (None, None)
    | Some ints =>
        match ints with
        | [a; b] => (Some (a, b), None)
        | [a; b; c; d] => (Some (a, b), Some (c, d))
        | _ => (None, None)
        end
    end.


(** The place-code grammar.  [re.match] anchors at the start; [$] matches
    at the end of the string and also just before a final newline. *)
Definition is_upper (c : ascii) : bool :=
  let n := N_of_ascii c in ((65 <=? n) && (n <=? 90))%N.
Definition is_lower (c : ascii) : bool :=
  let n := N_of_ascii c in ((97 <=? n) && (n <=? 122))%N.
Definition is_digit (c : ascii) : bool :=
  let n := N_of_ascii c in ((48 <=? n) && (n <=? 57))%N.

Definition at_dollar (s : string) : bool :=
  match s with
  | EmptyString => true
  | String c EmptyString => Ascii.eqb c "010"%char
  | _ => false
  end.

(** [_IATA_RE = ^[A-Z0-9]{3}$] *)
Definition _IATA_RE (s : string) : bool :=
  match s with
  | String a (String b (String c r)) =>
      (is_upper a || is_digit a) && (is_upper b || is_digit b)
      && (is_upper c || is_digit c) && at_dollar r
  | _ => false
  end.

Definition is_kgmid_char (c : ascii) : bool :=
  is_upper c || is_lower c || is_digit c || Ascii.eqb c "_"%char.

(** [[A-Za-z0-9_]+$] *)
Fixpoint kgmid_tail (s : string) : bool :=
  match s with
  | EmptyString => false
  | String c r => is_kgmid_char c && (at_dollar r || kgmid_tail r)
  end.

(** [_KGMID_RE = ^/m/[A-Za-z0-9_]+$] *)
Definition _KGMID_RE (s : string) : bool :=
  match s with
  | String "/"%char (String "m"%char (String "/"%char r)) => kgmid_tail r
  | _ => false
  end.

Definition _is_airport_or_place (s : string) : bool :=
  _IATA_RE s || _KGMID_RE s.

(** The exceptions the module lets escape.  The first seven are
    [ValueError]s, told apart by their message; [TypeError] is the
    encoder's (or [re]'s) rejection and [AttributeError] comes from
    [leg.get] on a value that is not a JSON object. *)
Inductive error : Type :=
  | InvalidCode            (* "Invalid code '...'. Expect IATA ... or kgmid ..." *)
  | InvalidDate            (* "Invalid date '...': ..." *)
  | InvalidMultiCityJson   (* "Invalid multi_city_json: ..." *)
  | LegNeedsFields         (* "Each multi-city leg needs departure_id, arrival_id, date" *)
  | EndpointsRequired      (* "departure_id and arrival_id are required (CSV or single)." *)
  | OutboundDateRequired   (* "outbound_date is required for non multi-city searches." *)
  | ReturnDateRequired     (* "return_date is required when type=1 (Round trip)." *)
  | TypeError
  | AttributeError.

Global Instance error_eq_dec : EqDecision error.
Proof. solve_decision. Defined.

(** The structural [ValueError]s: a required field is missing. *)
Definition is_invalid_request (e : error) : bool :=
  match e with
  | InvalidMultiCityJson | LegNeedsFields | EndpointsRequired
  | OutboundDateRequired | ReturnDateRequired => true
  | _ => false
  end.

Definition is_value_error (e : error) : bool :=
  match e with
  | TypeError | AttributeError => false
  | _ => true
  end.

(** A small error monad for the raising code. *)
Definition result (A : Type) : Type := error + A.

Definition raise {A} (e : error) : result A := inl e.
Definition ret {A} (a : A) : result A := inr a.
Definition bind {A B} (m : result A) (k : A -> result B) : result B :=
  match m with
  | inl e => inl e
  | inr a => k a
  end.

Notation "'let!' x ':=' m 'in' k" := (bind m (fun x => k))
  (at level 10, x pattern, m at level 100, k at level 200).
Notation "'do!' m 'in' k" := (bind m (fun _ => k))
  (at level 10, m at level 100, k at level 200).

(** A [for] loop that builds a list and stops at the first exception. *)
Fixpoint for_each {A B} (f : A -> result B) (l : list A) : result (list B) :=
  match l with
  | [] => ret []
  | a :: l' => let! b := f a in let! bs := for_each f l' in ret (b :: bs)
  end.


(** [urllib.parse.quote_plus(v, safe="")]: the unreserved characters stay,
    a space becomes [+], every other byte becomes [%XX]. *)
Definition hex_digit (n : N) : ascii :=
  if (n <? 10)%N then ascii_of_N (48 + n) else ascii_of_N (55 + n).

Definition always_safe (c : ascii) : bool :=
  is_upper c || is_lower c || is_digit c
  || Ascii.eqb c "_"%char || Ascii.eqb c "."%char
  || Ascii.eqb c "-"%char || Ascii.eqb c "~"%char.

Fixpoint _q (v : string) : string :=
  match v with
  | EmptyString => EmptyString
  | String c r =>
      if always_safe c then String c (_q r)
      else if Ascii.eqb c " "%char then String "+"%char (_q r)
      else let n := N_of_ascii c in
           String "%"%char
             (String (hex_digit (n / 16)) (String (hex_digit (n mod 16)) (_q r)))
  end.

(** The enumeration tables. *)
Definition _TRAVEL_CLASS : gmap string string :=
  <["1" := "economy"]> (<["2" := "premium-economy"]>
    (<["3" := "business"]> (<["4" := "first"]> ∅))).

Definition _STOPS_MAP : gmap string (option Z) :=
  <["0" := None]> (<["1" := Some 0]> (<["2" := Some 1]> (<["3" := Some 2]> ∅))).

(** ** The encoder's interface (fast_flights) *)

Record FlightData : Type := mkFlightData {
  fd_date : option string;
  fd_from_airport : string;
  fd_to_airport : string
}.

Record Passengers : Type := mkPassengers {
  pax_adults : Z;
  pax_children : Z;
  pax_infants_in_seat : Z;
  pax_infants_on_lap : Z
}.

(** The keyword arguments handed to [TFSData.from_interface]: a field is
    [None] when the key is not passed.  [max_stops] can be passed with
    the value [None] (multi-city branch), hence the nested option. *)
Record tfs_kwargs : Type := mkKwargs {
  kw_flight_data : list FlightData;
  kw_trip : string;
  kw_passengers : Passengers;
  kw_seat : option string;
  kw_max_stops : option (option Z);
  kw_include_airlines : option (list string);
  kw_exclude_airlines : option (list string);
  kw_dep_time_window : option window;
  kw_arr_time_window : option window;
  kw_dep_time_windows : option (list (option window));
  kw_arr_time_windows : option (list (option window))
}.

Definition set_include_airlines (v : list string) (k : tfs_kwargs) : tfs_kwargs :=
  mkKwargs (kw_flight_data k) (kw_trip k) (kw_passengers k) (kw_seat k)
    (kw_max_stops k) (Some v) (kw_exclude_airlines k) (kw_dep_time_window k)
    (kw_arr_time_window k) (kw_dep_time_windows k) (kw_arr_time_windows k).

Definition set_exclude_airlines (v : list string) (k : tfs_kwargs) : tfs_kwargs :=
  mkKwargs (kw_flight_data k) (kw_trip k) (kw_passengers k) (kw_seat k)
    (kw_max_stops k) (kw_include_airlines k) (Some v) (kw_dep_time_window k)
    (kw_arr_time_window k) (kw_dep_time_windows k) (kw_arr_time_windows k).

Definition set_dep_time_window (v : window) (k : tfs_kwargs) : tfs_kwargs :=
  mkKwargs (kw_flight_data k) (kw_trip k) (kw_passengers k) (kw_seat k)
    (kw_max_stops k) (kw_include_airlines k) (kw_exclude_airlines k) (Some v)
    (kw_arr_time_window k) (kw_dep_time_windows k) (kw_arr_time_windows k).

Definition set_arr_time_window (v : window) (k : tfs_kwargs) : tfs_kwargs :=
  mkKwargs (kw_flight_data k) (kw_trip k) (kw_passengers k) (kw_seat k)
    (kw_max_stops k) (kw_include_airlines k) (kw_exclude_airlines k)
    (kw_dep_time_window k) (Some v) (kw_dep_time_windows k) (kw_arr_time_windows k).

Definition set_time_windows (d a : list (option window)) (k : tfs_kwargs)
  : tfs_kwargs :=
  mkKwargs (kw_flight_data k) (kw_trip k) (kw_passengers k) (kw_seat k)
    (kw_max_stops k) (kw_include_airlines k) (kw_exclude_airlines k)
    (kw_dep_time_window k) (kw_arr_time_window k) (Some d) (Some a).

(** ** Coverage and links (lines 100-109) *)

Record Coverage : Type := mkCoverage {
  encoded : list string;
  approximated : list string;
  unmatched : list string
}.

Record LinkOut : Type := mkLinkOut {
  url : string;
  coverage : Coverage
}.

Definition add_encoded (e : list string) (c : Coverage) : Coverage :=
  mkCoverage (encoded c ++ e) (approximated c) (unmatched c).
Definition add_approximated (e : string) (c : Coverage) : Coverage :=
  mkCoverage (encoded c) (approximated c ++ [e]) (unmatched c).
Definition add_unmatched (e : string) (c : Coverage) : Coverage :=
  mkCoverage (encoded c) (approximated c) (unmatched c ++ [e]).

Definition gf_url (tfs hl gl currency : string) : string :=
  "https://www.google.com/travel/flights?" +:+
  "tfs=" +:+ _q tfs +:+ "&hl=" +:+ _q hl +:+ "&gl=" +:+ _q gl
  +:+ "&curr=" +:+ _q currency.

(** ** Core: one URL for one (from, to) pair (lines 115-265) *)

(** The keyword arguments of [_build_single_url]. *)
Record single_args : Type := mkSingle {
  sa_dep : string;
  sa_arr : string;
  sa_outbound_date : string;
  sa_return_date : option string;
  sa_type : option string;
  sa_travel_class : option string;
  sa_adults : Z;
  sa_children : Z;
  sa_infants_in_seat : Z;
  sa_infants_on_lap : Z;
  sa_stops : option string;
  sa_include_airlines : list string;
  sa_exclude_airlines : list string;
  sa_outbound_times : option string;
  sa_return_times : option string;
  sa_hl : string;
  sa_gl : string;
  sa_currency : string
}.

(** Lines 143-159: the legs and the [round_trip] flag. *)
Definition trip_legs (a : single_args) : list FlightData * bool :=
  let leg0 := mkFlightData (Some (sa_outbound_date a)) (sa_dep a) (sa_arr a) in
  if bool_decide (sa_type a = Some "2") then ([leg0], false)
  else if bool_decide (sa_type a = Some "1")
          || (bool_decide (sa_return_date a <> None)
              && bool_decide (sa_type a = None))
  then ([leg0; mkFlightData (sa_return_date a) (sa_arr a) (sa_dep a)], true)
  else ([leg0], false).

(** Lines 171-177: seat / cabin. *)
Definition cabin_step (travel_class : option string) (cov : Coverage)
  : option string * Coverage :=
  match travel_class with
  | Some tc =>
      if Py.truthy_str tc then
        match _TRAVEL_CLASS !! tc with
        | Some seat => (Some seat, add_encoded ["travel_class"] cov)
        | None => (None, add_unmatched ("travel_class (" +:+ tc +:+ ")") cov)
        end
      else (None, cov)
  | None => (None, cov)
  end.

(** Lines 179-186: stops. *)
Definition stops_step (stops : option string) (cov : Coverage)
  : option Z * Coverage :=
  match stops with
  | Some s =>
      match _STOPS_MAP !! s with
      | Some max_stops => (max_stops, add_encoded ["stops"] cov)
      | None => (None, add_unmatched ("stops (" +:+ s +:+ ")") cov)
      end
  | None => (None, cov)
  end.

Definition not_supported (key : string) : string :=
  key +:+ " (not supported by installed fast-flights)".

Definition return_times_note : string :=
  "return_times (per-leg windows unsupported; only outbound applied)".

Section Builder.

(** [TFSData.from_interface] followed by [as_b64().decode()]: [None] is the
    [TypeError] of a rejected construction. *)
Variable from_interface : tfs_kwargs -> option string.

(** Whether [date.fromisoformat] accepts the string. *)
Variable date_fromisoformat : string -> bool.

Definition _validate_airport_or_place (code : string) : result unit :=
  if _is_airport_or_place code then ret tt else raise InvalidCode.

Definition _validate_iso_date (iso : string) : result unit :=
  if date_fromisoformat iso then ret tt else raise InvalidDate.

(** The closure [_try_kw] (lines 209-217), with the two objects it
    mutates, [tfs_kwargs] and [cov], passed as a state. *)
Definition _try_kw (key : string) (set : tfs_kwargs -> tfs_kwargs)
    (st : tfs_kwargs * Coverage) : tfs_kwargs * Coverage :=
  match from_interface (set (fst st)) with
  | Some _ => (set (fst st), add_encoded [key] (snd st))
  | None => (fst st, add_unmatched (not_supported key) (snd st))
  end.

(** Lines 231-248: the paired per-leg windows of a round trip. *)
Definition return_windows_step (round_trip : bool)
    (dep0 arr0 dep1 arr1 : option window)
    (st : tfs_kwargs * Coverage) : tfs_kwargs * Coverage :=
  if round_trip && (bool_decide (dep1 <> None) || bool_decide (arr1 <> None))
  then
    match from_interface (set_time_windows [dep0; dep1] [arr0; arr1] (fst st)) with
    | Some _ =>
        (set_time_windows [dep0; dep1] [arr0; arr1] (fst st),
         add_encoded ["dep_time_windows/arr_time_windows"] (snd st))
    | None => (fst st, add_approximated return_times_note (snd st))
    end
  else st.

(** Lines 143-248: everything between validation and the final encoding;
    returns the keyword arguments of the final [from_interface] call and
    the coverage collected so far. *)
Definition single_plan (a : single_args) : tfs_kwargs * Coverage :=
  let '(legs, round_trip) := trip_legs a in
  let pax := mkPassengers (Z.max 0 (sa_adults a)) (Z.max 0 (sa_children a))
               (Z.max 0 (sa_infants_in_seat a)) (Z.max 0 (sa_infants_on_lap a)) in
  let cov := mkCoverage [] [] [] in
  let '(seat, cov) := cabin_step (sa_travel_class a) cov in
  let '(max_stops, cov) := stops_step (sa_stops a) cov in
  let '(dep0, arr0) := _parse_time_window (sa_outbound_times a) in
  let '(dep1, arr1) :=
    if round_trip then _parse_time_window (sa_return_times a)
    else (None, None) in
  let kw := mkKwargs legs (if round_trip then "round-trip" else "one-way") pax
              seat (Some <$> max_stops) None None None None None None in
  let st := (kw, cov) in
  let st := match sa_include_airlines a with
            | [] => st
            | v => _try_kw "include_airlines" (set_include_airlines v) st
            end in
  let st := match sa_exclude_airlines a with
            | [] => st
            | v => _try_kw "exclude_airlines" (set_exclude_airlines v) st
            end in
  let st := match dep0 with
            | Some w => _try_kw "dep_time_window" (set_dep_time_window w) st
            | None => st
            end in
  let st := match arr0 with
            | Some w => _try_kw "arr_time_window" (set_arr_time_window w) st
            | None => st
            end in
  return_windows_step round_trip dep0 arr0 dep1 arr1 st.

Definition _build_single_url (a : single_args) : result LinkOut :=
  do! _validate_airport_or_place (sa_dep a) in
  do! _validate_airport_or_place (sa_arr a) in
  do! _validate_iso_date (sa_outbound_date a) in
  do! (match sa_return_date a with
       | Some rd => if Py.truthy_str rd then _validate_iso_date rd else ret tt
       | None => ret tt
       end) in
  let '(kw, cov) := single_plan a in
  match from_interface kw with
  | None => raise TypeError
  | Some tfs =>
      ret (mkLinkOut (gf_url tfs (sa_hl a) (sa_gl a) (sa_currency a))
             (add_encoded ["tfs"; "hl"; "gl"; "currency"] cov))
  end.

End Builder.

(** ** The request and the aggregate result (lines 271-316) *)

(** The keyword arguments of [build_gf_urls], with the source's names.
    Defaults ([adults=1], [hl="en"], ...) are the caller's business: a
    record always carries a value. *)
Record request : Type := mkRequest {
  departure_id : option string;
  arrival_id : option string;
  outbound_date : option string;
  return_date : option string;
  type : option string;
  travel_class : option string;
  adults : Z;
  children : Z;
  infants_in_seat : Z;
  infants_on_lap : Z;
  stops : option string;
  include_airlines : option string;
  exclude_airlines : option string;
  outbound_times : option string;
  return_times : option string;
  hl : string;
  gl : string;
  currency : string;
  deep_search : option bool;
  show_hidden : option bool;
  bags : option Z;
  max_price : option Z;
  sort_by : option string;
  emissions : option string;
  layover_duration : option string;
  exclude_conns : option string;
  max_duration : option Z;
  departure_token : option string;
  booking_token : option string;
  multi_city_json : option string
}.

(** Python values that can sit in the fallback mapping. *)
Inductive pyval : Type :=
  | VNone
  | VBool (b : bool)
  | VInt (n : Z)
  | VStr (s : string)
  | VList (l : list string).

Global Instance pyval_eq_dec : EqDecision pyval.
Proof. solve_decision. Defined.

Definition of_str (o : option string) : pyval :=
  match o with Some s => VStr s | None => VNone end.
Definition of_int (o : option Z) : pyval :=
  match o with Some n => VInt n | None => VNone end.
Definition of_bool (o : option bool) : pyval :=
  match o with Some b => VBool b | None => VNone end.

Record aggregate : Type := mkAggregate {
  links : list LinkOut;
  unmatched_global : list string;
  serpapi_fallback : gmap string pyval
}.

(** What [json.loads] returns.  Of a float only its truth value matters
    here.  An object is its key/value pairs, keys unique. *)
#[warnings="-register-all"]
Inductive json : Type :=
  | JNull
  | JBool (b : bool)
  | JInt (n : Z)
  | JFloat (nonzero : bool)
  | JStr (s : string)
  | JArr (items : list json)
  | JObj (members : list (string * json)).

Definition json_truthy (j : json) : bool :=
  match j with
  | JNull => false
  | JBool b => b
  | JInt n => negb (n =? 0)
  | JFloat nz => nz
  | JStr s => Py.truthy_str s
  | JArr l => match l with [] => false | _ => true end
  | JObj m => match m with [] => false | _ => true end
  end.

(** [dict.get(key)] with its default [None]. *)
Fixpoint dict_get (key : string) (m : list (string * json)) : json :=
  match m with
  | [] => JNull
  | (k, v) :: m' => if bool_decide (k = key) then v else dict_get key m'
  end.

(** ** [_serpapi_only_flags] (lines 461-477) *)

Definition flag (cond : bool) (entry : string) : list string :=
  if cond then [entry] else [].

Definition _serpapi_only_flags
    (deep_search show_hidden : option bool) (bags max_price : option Z)
    (sort_by emissions layover_duration exclude_conns : option string)
    (max_duration : option Z) (departure_token booking_token : option string)
  : list string :=
  flag (bool_decide (deep_search = Some true)) "deep_search (SerpApi-only)"
  ++ flag (bool_decide (show_hidden = Some true)) "show_hidden (SerpApi-only)"
  ++ flag (negb (bool_decide (bags = None) || bool_decide (bags = Some 0)))
       "bags (no URL equivalent)"
  ++ flag (bool_decide (max_price <> None)) "max_price (no URL equivalent)"
  ++ flag (bool_decide (sort_by <> None)) "sort_by (no URL equivalent)"
  ++ flag (bool_decide (emissions <> None)) "emissions (no URL equivalent)"
  ++ flag (Py.truthy layover_duration) "layover_duration (no URL equivalent)"
  ++ flag (Py.truthy exclude_conns) "exclude_conns (no URL equivalent)"
  ++ flag (bool_decide (max_duration <> None)) "max_duration (no URL equivalent)"
  ++ flag (Py.truthy departure_token)
       "departure_token (result-navigation, SerpApi-only)"
  ++ flag (Py.truthy booking_token) "booking_token (booking step, SerpApi-only)".

Definition request_flags (r : request) : list string :=
  _serpapi_only_flags (deep_search r) (show_hidden r) (bags r) (max_price r)
    (sort_by r) (emissions r) (layover_duration r) (exclude_conns r)
    (max_duration r) (departure_token r) (booking_token r).

(** ** [build_serpapi_params] (lines 432-455) *)

Definition allowed : list string :=
  ["engine"; "departure_id"; "arrival_id"; "outbound_date"; "return_date";
   "hl"; "gl"; "currency"; "type"; "travel_class"; "adults"; "children";
   "infants_in_seat"; "infants_on_lap"; "stops"; "include_airlines";
   "exclude_airlines"; "bags"; "max_price"; "sort_by"; "emissions";
   "layover_duration"; "exclude_conns"; "max_duration"; "outbound_times";
   "return_times"; "multi_city_json"; "departure_token"; "booking_token";
   "deep_search"; "show_hidden"; "no_cache"; "async"; "zero_trace";
   "api_key"; "output"; "json_restrictor"].

(** [v not in (None, "", [])] *)
Definition not_blank (v : pyval) : bool :=
  match v with
  | VNone => false
  | VStr s => Py.truthy_str s
  | VList l => match l with [] => false | _ => true end
  | _ => true
  end.

Definition keep_param (m : gmap string pyval) (kv : string * pyval)
  : gmap string pyval :=
  if bool_decide (kv.1 ∈ allowed) && not_blank kv.2 then <[kv.1 := kv.2]> m
  else m.

Definition join_csv (m : gmap string pyval) (key : string)
  : gmap string pyval :=
  match m !! key with
  | Some (VList l) => <[key := VStr (Py.join "," l)]> m
  | _ => m
  end.

Definition build_serpapi_params (kwargs : list (string * pyval))
  : gmap string pyval :=
  let result := foldl keep_param ∅ kwargs in
  let result := foldl join_csv result ["include_airlines"; "exclude_airlines"] in
  match result !! "engine" with
  | Some _ => result
  | None => <["engine" := VStr "google_flights"]> result
  end.

(** [locals() | {"engine": "google_flights"}] inside [build_gf_urls]: the
    thirty parameters, then the override.  The function's other local
    variables ([legs], [links], [deps], [key], [raw], ...) are left out:
    none of their names is in [allowed]. *)
Definition request_locals (r : request) : list (string * pyval) :=
  [("departure_id", of_str (departure_id r));
   ("arrival_id", of_str (arrival_id r));
   ("outbound_date", of_str (outbound_date r));
   ("return_date", of_str (return_date r));
   ("type", of_str (type r));
   ("travel_class", of_str (travel_class r));
   ("adults", VInt (adults r));
   ("children", VInt (children r));
   ("infants_in_seat", VInt (infants_in_seat r));
   ("infants_on_lap", VInt (infants_on_lap r));
   ("stops", of_str (stops r));
   ("include_airlines", of_str (include_airlines r));
   ("exclude_airlines", of_str (exclude_airlines r));
   ("outbound_times", of_str (outbound_times r));
   ("return_times", of_str (return_times r));
   ("hl", VStr (hl r));
   ("gl", VStr (gl r));
   ("currency", VStr (currency r));
   ("deep_search", of_bool (deep_search r));
   ("show_hidden", of_bool (show_hidden r));
   ("bags", of_int (bags r));
   ("max_price", of_int (max_price r));
   ("sort_by", of_str (sort_by r));
   ("emissions", of_str (emissions r));
   ("layover_duration", of_str (layover_duration r));
   ("exclude_conns", of_str (exclude_conns r));
   ("max_duration", of_int (max_duration r));
   ("departure_token", of_str (departure_token r));
   ("booking_token", of_str (booking_token r));
   ("multi_city_json", of_str (multi_city_json r));
   ("engine", VStr "google_flights")].

(** [sorted(set(xs))]: the set is a [gset]; [elements] enumerates it in
    some order, as iterating a Python set does, and the sort is the
    code-point order of [str]. *)
Definition sorted_set (xs : list string) : list string :=
  merge_sort String.le (elements (list_to_set xs : gset string)).

(** ** [build_gf_urls] (lines 271-426) *)

(** A validated multi-city leg: [dict(dep=d, arr=a, date=dt)]. *)
Record mc_leg : Type := mkLeg {
  leg_dep : string;
  leg_arr : string;
  leg_date : string
}.

Definition multi_city_note : string :=
  "multi-city (not supported by installed fast-flights; returned per-leg URLs)".

(** [itertools.product(xs, ys)]: the second list varies fastest. *)
Definition product {A B} (xs : list A) (ys : list B) : list (A * B) :=
  flat_map (fun x => map (fun y => (x, y)) ys) xs.

Section Compiler.

Variable from_interface : tfs_kwargs -> option string.
Variable date_fromisoformat : string -> bool.

(** [json.loads]: [None] when it raises. *)
Variable json_loads : string -> option json.

Definition is_multi_city (r : request) : bool :=
  bool_decide (type r = Some "3") || Py.truthy (multi_city_json r).

(** Lines 326-330. *)
Definition load_legs (r : request) : result (list json) :=
  let legs_in :=
    if Py.truthy (multi_city_json r)
    then json_loads (default EmptyString (multi_city_json r))
    else Some (JArr []) in
  match legs_in with
  | Some (JArr (leg :: more)) => ret (leg :: more)
  | _ => raise InvalidMultiCityJson
  end.

(** [_validate_airport_or_place] on a JSON value: [re] raises
    [TypeError] on anything but a string. *)
Definition validate_place_value (j : json) : result string :=
  match j with
  | JStr s => do! _validate_airport_or_place s in ret s
  | _ => raise TypeError
  end.

(** [_validate_iso_date] on a JSON value: whatever [date.fromisoformat]
    raises is turned into the [ValueError]. *)
Definition validate_date_value (j : json) : result string :=
  match j with
  | JStr s => do! _validate_iso_date date_fromisoformat s in ret s
  | _ => raise InvalidDate
  end.

(** Lines 332-337: one turn of the loop over [legs_in]. *)
Definition check_leg (leg : json) : result mc_leg :=
  match leg with
  | JObj m =>
      let d := dict_get "departure_id" m in
      let a := dict_get "arrival_id" m in
      let dt := dict_get "date" m in
      if negb (json_truthy d && json_truthy a && json_truthy dt)
      then raise LegNeedsFields
      else
        let! d := validate_place_value d in
        let! a := validate_place_value a in
        let! dt := validate_date_value dt in
        ret (mkLeg d a dt)
  | _ => raise AttributeError
  end.

(** Lines 353-362: one turn of the airline loop; the state is
    [tfs_kwargs] and [cov_global_unmatched]. *)
Definition airline_probe (key : string)
    (set : list string -> tfs_kwargs -> tfs_kwargs) (raw : list string)
    (st : tfs_kwargs * list string) : tfs_kwargs * list string :=
  match raw with
  | [] => st
  | _ =>
      match from_interface (set raw (fst st)) with
      | Some _ => (set raw (fst st), snd st)
      | None => (fst st, snd st ++ [not_supported key])
      end
  end.

(** Lines 343-362: the keyword arguments of the multi-city construction
    and the global unmatched entries collected on the way. *)
Definition multi_city_plan (r : request) (legs : list mc_leg)
  : tfs_kwargs * list string :=
  let ff_legs :=
    map (fun l => mkFlightData (Some (leg_date l)) (leg_dep l) (leg_arr l)) legs in
  let pax := mkPassengers (adults r) (children r) (infants_in_seat r)
               (infants_on_lap r) in
  let kw := mkKwargs ff_legs "multi-city" pax
              (travel_class r ≫= fun tc => _TRAVEL_CLASS !! tc)
              (stops r ≫= fun s => _STOPS_MAP !! s)
              None None None None None None in
  airline_probe "exclude_airlines" set_exclude_airlines
    (_csv_to_list (exclude_airlines r))
    (airline_probe "include_airlines" set_include_airlines
       (_csv_to_list (include_airlines r)) (kw, [])).

(** Lines 373-383: the arguments of the fallback one-way call for a leg. *)
Definition fallback_args (r : request) (l : mc_leg) : single_args :=
  mkSingle (leg_dep l) (leg_arr l) (leg_date l) None (Some "2")
    (travel_class r) (adults r) (children r) (infants_in_seat r)
    (infants_on_lap r) (stops r)
    (_csv_to_list (include_airlines r)) (_csv_to_list (exclude_airlines r))
    None None (hl r) (gl r) (currency r).

(** Lines 321-389. *)
Definition build_multi_city (r : request) : result aggregate :=
  let! legs_in := load_legs r in
  let! legs := for_each check_leg legs_in in
  let '(kw, cov_global_unmatched) := multi_city_plan r legs in
  let! out :=
    match from_interface kw with
    | Some tfs =>
        ret ([mkLinkOut (gf_url tfs (hl r) (gl r) (currency r))
                (mkCoverage ["tfs"; "hl"; "gl"; "currency"] [] [])],
             cov_global_unmatched)
    | None =>
        let! links :=
          for_each
            (fun l => _build_single_url from_interface date_fromisoformat
                        (fallback_args r l))
            (take (length legs - 1) legs) in
        ret (links, cov_global_unmatched ++ [multi_city_note])
    end in
  ret (mkAggregate (fst out)
         (sorted_set (snd out ++ request_flags r))
         (build_serpapi_params (request_locals r))).

(** Lines 403-416: the arguments of the call for one (dep, arr) pair. *)
Definition pair_args (r : request) (od : string) (pair : string * string)
  : single_args :=
  mkSingle (fst pair) (snd pair) od
    (if bool_decide (type r = Some "1")
        || (Py.truthy (return_date r) && bool_decide (type r = None))
     then return_date r else None)
    (type r) (travel_class r) (adults r) (children r) (infants_in_seat r)
    (infants_on_lap r) (stops r)
    (_csv_to_list (include_airlines r)) (_csv_to_list (exclude_airlines r))
    (outbound_times r) (return_times r) (hl r) (gl r) (currency r).

(** Lines 391-426. *)
Definition build_single_pair (r : request) : result aggregate :=
  let deps := _csv_to_list (departure_id r) in
  let arrs := _csv_to_list (arrival_id r) in
  if bool_decide (deps = []) || bool_decide (arrs = [])
  then raise EndpointsRequired
  else if negb (Py.truthy (outbound_date r)) then raise OutboundDateRequired
  else if bool_decide (type r = Some "1") && negb (Py.truthy (return_date r))
  then raise ReturnDateRequired
  else
    let! links :=
      for_each
        (fun pair => _build_single_url from_interface date_fromisoformat
                       (pair_args r (default EmptyString (outbound_date r)) pair))
        (product deps arrs) in
    ret (mkAggregate links (sorted_set (request_flags r))
           (build_serpapi_params (request_locals r))).

Definition build_gf_urls (r : request) : result aggregate :=
  if is_multi_city r then build_multi_city r else build_single_pair r.

End Compiler.

(** ** Auxiliary predicates and sample collaborators

    Predicates used in the statements below, and concrete instances of
    the external collaborators on which the statements are exercised. *)

(** Whether the character occurs in the string. *)
Fixpoint mentions (c : ascii) (s : string) : bool :=
  match s with
  | EmptyString => false
  | String c' s' => Ascii.eqb c' c || mentions c s'
  end.

(** A string that does not start with white space. *)
Definition left_clean (s : string) : bool :=
  match s with
  | EmptyString => true
  | String c _ => negb (Py.isspace c)
  end.

(** A code as it comes out of [_csv_to_list]: not empty, no comma, no
    white space at either end. *)
Definition clean_code (c : string) : Prop :=
  Py.truthy_str c = true /\ mentions ","%char c = false /\ Py.strip c = c.

(** An encoder that accepts every construction. *)
Definition accept_all (k : tfs_kwargs) : option string := Some "TOKEN".

(** An encoder that rejects every construction. *)
Definition reject_all (k : tfs_kwargs) : option string := None.

(** An encoder without multi-city support and without the optional
    airline and time-window keys. *)
Definition basic_encoder (k : tfs_kwargs) : option string :=
  if bool_decide (kw_trip k = "multi-city") then None
  else match kw_include_airlines k, kw_exclude_airlines k,
             kw_dep_time_window k, kw_arr_time_window k,
             kw_dep_time_windows k, kw_arr_time_windows k with
       | None, None, None, None, None, None => Some "BASIC"
       | _, _, _, _, _, _ => None
       end.

(** A date check that accepts exactly the shape DDDD-DD-DD. *)
Definition shape_date (s : string) : bool :=
  match s with
  | String y1 (String y2 (String y3 (String y4 (String d1
      (String m1 (String m2 (String d2 (String a1 (String a2 EmptyString)))))))))
    => is_digit y1 && is_digit y2 && is_digit y3 && is_digit y4
       && Ascii.eqb d1 "-"%char && is_digit m1 && is_digit m2
       && Ascii.eqb d2 "-"%char && is_digit a1 && is_digit a2
  | _ => false
  end.

Definition json_leg (d a dt : string) : json :=
  JObj [("departure_id", JStr d); ("arrival_id", JStr a); ("date", JStr dt)].

(** A stand-in for [json.loads] that knows a few payloads. *)
Definition sample_loads (s : string) : option json :=
  if bool_decide (s = "THREE_LEGS") then
    Some (JArr [json_leg "JFK" "LHR" "2025-08-15";
                json_leg "LHR" "CDG" "2025-08-20";
                json_leg "CDG" "JFK" "2025-08-25"])
  else if bool_decide (s = "ONE_LEG") then
    Some (JArr [json_leg "JFK" "LHR" "2025-08-15"])
  else if bool_decide (s = "NUMBER_LEG") then Some (JArr [JInt 1])
  else None.

(** SYD to MEL on 2025-08-15, everything else at its default. *)
Definition base_request : request :=
  mkRequest (Some "SYD") (Some "MEL") (Some "2025-08-15") None None None
    1 0 0 0 None None None None None "en" "US" "USD"
    None None None None None None None None None None None None.

Definition with_endpoints (dep arr : string) (r : request) : request :=
  mkRequest (Some dep) (Some arr) (outbound_date r) (return_date r) (type r)
    (travel_class r) (adults r) (children r) (infants_in_seat r)
    (infants_on_lap r) (stops r) (include_airlines r) (exclude_airlines r)
    (outbound_times r) (return_times r) (hl r) (gl r) (currency r)
    (deep_search r) (show_hidden r) (bags r) (max_price r) (sort_by r)
    (emissions r) (layover_duration r) (exclude_conns r) (max_duration r)
    (departure_token r) (booking_token r) (multi_city_json r).

Definition with_return_date (rd : option string) (r : request) : request :=
  mkRequest (departure_id r) (arrival_id r) (outbound_date r) rd (type r)
    (travel_class r) (adults r) (children r) (infants_in_seat r)
    (infants_on_lap r) (stops r) (include_airlines r) (exclude_airlines r)
    (outbound_times r) (return_times r) (hl r) (gl r) (currency r)
    (deep_search r) (show_hidden r) (bags r) (max_price r) (sort_by r)
    (emissions r) (layover_duration r) (exclude_conns r) (max_duration r)
    (departure_token r) (booking_token r) (multi_city_json r).




Definition with_multi_city (t : option string) (r : request) : request :=
  mkRequest (departure_id r) (arrival_id r) (outbound_date r) (return_date r)
    (type r) (travel_class r) (adults r) (children r) (infants_in_seat r)
    (infants_on_lap r) (stops r) (include_airlines r) (exclude_airlines r)
    (outbound_times r) (return_times r) (hl r) (gl r) (currency r)
    (deep_search r) (show_hidden r) (bags r) (max_price r) (sort_by r)
    (emissions r) (layover_duration r) (exclude_conns r) (max_duration r)
    (departure_token r) (booking_token r) t.

Definition with_sort_by (t : option string) (r : request) : request :=
  mkRequest (departure_id r) (arrival_id r) (outbound_date r) (return_date r)
    (type r) (travel_class r) (adults r) (children r) (infants_in_seat r)
    (infants_on_lap r) (stops r) (include_airlines r) (exclude_airlines r)
    (outbound_times r) (return_times r) (hl r) (gl r) (currency r)
    (deep_search r) (show_hidden r) (bags r) (max_price r) t
    (emissions r) (layover_duration r) (exclude_conns r) (max_duration r)
    (departure_token r) (booking_token r) (multi_city_json r).

Definition with_outbound_times (t : option string) (r : request) : request :=
  mkRequest (departure_id r) (arrival_id r) (outbound_date r) (return_date r)
    (type r) (travel_class r) (adults r) (children r) (infants_in_seat r)
    (infants_on_lap r) (stops r) (include_airlines r) (exclude_airlines r)
    t (return_times r) (hl r) (gl r) (currency r)
    (deep_search r) (show_hidden r) (bags r) (max_price r) (sort_by r)
    (emissions r) (layover_duration r) (exclude_conns r) (max_duration r)
    (departure_token r) (booking_token r) (multi_city_json r).


(** Lines 188-248 of [_build_single_url] on their own: the probes of the
    optional keys, started from given keyword arguments and coverage.
    [single_plan] is this pipeline run after the cabin and stops steps
    (lemma [single_plan_eq]). *)
Definition probe_filters (from_interface : tfs_kwargs -> option string)
    (a : single_args) (round_trip : bool) (st : tfs_kwargs * Coverage)
  : tfs_kwargs * Coverage :=
  let '(dep0, arr0) := _parse_time_window (sa_outbound_times a) in
  let '(dep1, arr1) :=
    if round_trip then _parse_time_window (sa_return_times a)
    else (None, None) in
  let st := match sa_include_airlines a with
            | [] => st
            | v => _try_kw from_interface "include_airlines"
                     (set_include_airlines v) st
            end in
  let st := match sa_exclude_airlines a with
            | [] => st
            | v => _try_kw from_interface "exclude_airlines"
                     (set_exclude_airlines v) st
            end in
  let st := match dep0 with
            | Some w => _try_kw from_interface "dep_time_window"
                          (set_dep_time_window w) st
            | None => st
            end in
  let st := match arr0 with
            | Some w => _try_kw from_interface "arr_time_window"
                          (set_arr_time_window w) st
            | None => st
            end in
  return_windows_step from_interface round_trip dep0 arr0 dep1 arr1 st.

(** The keyword arguments before any probe. *)
Definition base_kwargs (a : single_args) : tfs_kwargs :=
  mkKwargs (trip_legs a).1
    (if (trip_legs a).2 then "round-trip" else "one-way")
    (mkPassengers (Z.max 0 (sa_adults a)) (Z.max 0 (sa_children a))
       (Z.max 0 (sa_infants_in_seat a)) (Z.max 0 (sa_infants_on_lap a)))
    (cabin_step (sa_travel_class a) (mkCoverage [] [] [])).1
    (Some <$> (stops_step (sa_stops a) (mkCoverage [] [] [])).1)
    None None None None None None.

(** Componentwise concatenation of two coverage records. *)
Definition cov_app (c1 c2 : Coverage) : Coverage :=
  mkCoverage (encoded c1 ++ encoded c2) (approximated c1 ++ approximated c2)
    (unmatched c1 ++ unmatched c2).

(** The parameter name an entry starts with: the text before the first
    space. *)
Fixpoint entry_name (e : string) : string :=
  match e with
  | EmptyString => EmptyString
  | String c r => if Ascii.eqb c " "%char then EmptyString
                  else String c (entry_name r)
  end.

(** The names recorded in a coverage record, all three lists together. *)
Definition coverage_names (c : Coverage) : list string :=
  map entry_name (encoded c ++ approximated c ++ unmatched c).


(** Every name [_build_single_url] can record, each once. *)
Definition recordable_names : list string :=
  ["travel_class"; "stops"; "include_airlines"; "exclude_airlines";
   "dep_time_window"; "arr_time_window";
   "dep_time_windows/arr_time_windows"; "return_times";
   "tfs"; "hl"; "gl"; "currency"].

(** The request field behind a global unmatched entry: the entry's
    leading name, the multi-city note standing for the leg payload. *)
Definition entry_key (e : string) : string :=
  if bool_decide (entry_name e = "multi-city") then "multi_city_json"
  else entry_name e.

(** A global unmatched entry is backed by the request when the field it
    names is an allowed parameter bound to a non-blank scalar. *)
Definition entry_backed (r : request) (e : string) : Prop :=
  exists v, (entry_key e, v) ∈ request_locals r
            /\ entry_key e ∈ allowed
            /\ (forall l, v <> VList l)
            /\ not_blank v = true.

(** * Properties *)

(** ** String primitives *)


Lemma app_cons (c : ascii) (s t : string) :
  String c s +:+ t = String c (s +:+ t).
Proof. reflexivity. Qed.

Lemma app_empty (t : string) : EmptyString +:+ t = t.
Proof. reflexivity. Qed.

Lemma isspace_not_comma c : Py.isspace c = true -> Ascii.eqb c ","%char = false.
Proof.
  destruct (Ascii.eqb_spec c ","%char) as [->|]; [|done].
  vm_compute. discriminate.
Qed.

Lemma lstrip_mentions s :
  mentions ","%char (Py.lstrip s) = false -> mentions ","%char s = false.
Proof.
  induction s as [|c s IH]; simpl; [done|].
  destruct (Py.isspace c) eqn:Hc; [|done].
  intros H. rewrite (isspace_not_comma _ Hc). simpl. auto.
Qed.

Lemma rstrip_mentions s :
  mentions ","%char (Py.rstrip s) = false -> mentions ","%char s = false.
Proof.
  induction s as [|c s IH]; simpl; [done|].
  destruct (Py.rstrip s) as [|c' r] eqn:Hr.
  - destruct (Py.isspace c) eqn:Hc; simpl.
    + intros _. rewrite (isspace_not_comma _ Hc). simpl. auto.
    + intros H. apply orb_false_iff in H as [-> _]. simpl. auto.
  - simpl. intros H. apply orb_false_iff in H as [-> H]. simpl. auto.
Qed.

Lemma strip_mentions s :
  mentions ","%char (Py.strip s) = false -> mentions ","%char s = false.
Proof. intros H. by apply lstrip_mentions, rstrip_mentions. Qed.

Lemma int_digits_mentions s : forall acc prev z,
  Py.int_digits acc prev s = Some z -> mentions ","%char s = false.
Proof.
  induction s as [|c s IH]; intros acc prev z; simpl; [done|].
  destruct (Ascii.eqb_spec c "_"%char) as [->|Hne].
  - destruct prev; [|done]. intros H. simpl. eauto.
  - destruct (Py.digit_val c) as [d|] eqn:Hd; [|done].
    intros H. rewrite (IH _ _ _ H), orb_false_r.
    destruct (Ascii.eqb_spec c ","%char) as [->|]; [|done].
    vm_compute in Hd. discriminate.
Qed.

Lemma int_mentions s z : Py.int s = Some z -> mentions ","%char s = false.
Proof.
  unfold Py.int. intros H. apply strip_mentions.
  destruct (Py.strip s) as [|c r]; [done|].
  destruct (Ascii.eqb_spec c "+"%char) as [->|];
    [simpl; by eapply int_digits_mentions|].
  destruct (Ascii.eqb_spec c "-"%char) as [->|].
  - simpl. destruct (Py.int_digits 0 false r) eqn:E; [|done].
    by eapply int_digits_mentions.
  - by eapply int_digits_mentions.
Qed.

Lemma rstrip_idem s : Py.rstrip (Py.rstrip s) = Py.rstrip s.
Proof.
  induction s as [|c s IH]; simpl; [done|].
  destruct (Py.rstrip s) as [|c' r] eqn:Hr.
  - destruct (Py.isspace c) eqn:Hc; simpl; [done|]. by rewrite Hc.
  - simpl in *. by rewrite IH.
Qed.


Lemma lstrip_clean s : left_clean (Py.lstrip s) = true.
Proof.
  induction s as [|c s IH]; simpl; [done|].
  destruct (Py.isspace c) eqn:Hc; [done|]. simpl. by rewrite Hc.
Qed.

Lemma lstrip_of_clean s : left_clean s = true -> Py.lstrip s = s.
Proof. destruct s as [|c s]; simpl; [done|]. by destruct (Py.isspace c). Qed.

Lemma rstrip_clean s : left_clean s = true -> left_clean (Py.rstrip s) = true.
Proof.
  destruct s as [|c s]; simpl; [done|].
  destruct (Py.rstrip s); simpl; [|done].
  destruct (Py.isspace c) eqn:Hc; simpl; rewrite ?Hc; done.
Qed.

Lemma strip_idem s : Py.strip (Py.strip s) = Py.strip s.
Proof.
  unfold Py.strip.
  rewrite (lstrip_of_clean (Py.rstrip (Py.lstrip s)))
    by apply rstrip_clean, lstrip_clean.
  apply rstrip_idem.
Qed.

Lemma int_strip s : Py.int (Py.strip s) = Py.int s.
Proof. unfold Py.int. by rewrite strip_idem. Qed.

Lemma split_plain s :
  mentions ","%char s = false -> Py.split ","%char s = [s].
Proof.
  induction s as [|c s IH]; simpl; [done|].
  intros H. apply orb_false_iff in H as [-> H]. by rewrite IH.
Qed.

Lemma split_app p rest :
  mentions ","%char p = false ->
  Py.split ","%char (p +:+ String ","%char rest) = p :: Py.split ","%char rest.
Proof.
  induction p as [|c p IH]; [done|].
  rewrite app_cons. simpl. intros H.
  apply orb_false_iff in H as [-> H]. by rewrite IH.
Qed.

Lemma split_join ss :
  ss <> [] -> Forall (fun s => mentions ","%char s = false) ss ->
  Py.split ","%char (Py.join "," ss) = ss.
Proof.
  induction ss as [|s ss IH]; [done|]. intros _ H.
  apply Forall_cons in H as [Hs Hss].
  destruct ss as [|s' ss]; [by apply split_plain|].
  change (Py.join "," (s :: s' :: ss))
    with (s +:+ String ","%char (Py.join "," (s' :: ss))).
  rewrite split_app by done. f_equal. by apply IH.
Qed.

Lemma join_empty s ss : Py.join "," (s :: ss) = EmptyString -> s = EmptyString.
Proof. destruct ss; [done|]. by destruct s. Qed.

(** ** The time-window parser *)

Lemma parse_time_window_join ss zs :
  Forall2 (fun s z => Py.int s = Some z) ss zs ->
  _parse_time_window (Some (Py.join "," ss)) =
    match zs with
    | [a; b] => (Some (a, b), None)
    | [a; b; c; d] => (Some (a, b), Some (c, d))
    | _ => (None, None)
    end.
Proof.
  intros H. destruct H as [|s z ss zs Hs Hrest]; [done|].
  assert (Hall : Forall2 (fun s z => Py.int s = Some z) (s :: ss) (z :: zs))
    by by constructor.
  unfold _parse_time_window.
  remember (Py.join "," (s :: ss)) as j eqn:Hj.
  destruct j as [|c j].
  { symmetry in Hj. apply join_empty in Hj as ->. done. }
  simpl negb. cbv iota. simpl default. rewrite Hj.
  rewrite split_join; [|done|].
  - assert (Hm : mapM Py.int (Py.strip <$> s :: ss) = Some (z :: zs)).
    { apply mapM_Some. apply Forall2_fmap_l.
      eapply Forall2_impl; [exact Hall|]. intros x y Hx. simpl.
      by rewrite int_strip. }
    by rewrite Hm.
  - clear Hj. induction Hall as [|???? Hx _ IH]; constructor; [|done].
    by eapply int_mentions.
Qed.

(** C4 (time-window arity).  Two comma-separated integers give one
    (start, end) pair, four give two pairs, any other number of integers
    gives "absent"; in particular "8,18,12,22" gives (8,18) and (12,22),
    and the three-integer "8,18,12" gives absent.  The parser is a total
    function into pairs of optional windows: it has no error outcome. *)
Theorem parse_time_window_arity :
  (forall s1 s2 a b,
      Py.int s1 = Some a -> Py.int s2 = Some b ->
      _parse_time_window (Some (Py.join "," [s1; s2])) = (Some (a, b), None))
  /\ (forall s1 s2 s3 s4 a b c d,
      Py.int s1 = Some a -> Py.int s2 = Some b ->
      Py.int s3 = Some c -> Py.int s4 = Some d ->
      _parse_time_window (Some (Py.join "," [s1; s2; s3; s4]))
      = (Some (a, b), Some (c, d)))
  /\ (forall ss zs,
      Forall2 (fun s z => Py.int s = Some z) ss zs ->
      length zs <> 2%nat -> length zs <> 4%nat ->
      _parse_time_window (Some (Py.join "," ss)) = (None, None))
  /\ _parse_time_window (Some "8,18,12,22") = (Some (8, 18), Some (12, 22))
  /\ _parse_time_window (Some "8,18,12") = (None, None).
Proof.
  repeat split.
  - intros s1 s2 a b H1 H2.
    rewrite (parse_time_window_join [s1; s2] [a; b]); [done|].
    repeat constructor; done.
  - intros s1 s2 s3 s4 a b c d H1 H2 H3 H4.
    rewrite (parse_time_window_join [s1; s2; s3; s4] [a; b; c; d]); [done|].
    repeat constructor; done.
  - intros ss zs H N2 N4. rewrite (parse_time_window_join ss zs H).
    destruct zs as [|a [|b [|c [|d [|e zs]]]]]; simpl in *; done.
Qed.

Lemma parse_time_window_arity_witness :
  Py.int " 6 " = Some 6 /\ Py.int "+1_8" = Some 18
  /\ _parse_time_window (Some (Py.join "," [" 6 "; "+1_8"]))
     = (Some (6, 18), None).
Proof.
  split; [reflexivity|]. split; [reflexivity|].
  apply (proj1 parse_time_window_arity); reflexivity.
Defined.

(** ** The itinerary handed to the encoder *)

Section PlanFacts.

Variable from_interface : tfs_kwargs -> option string.

(** The probes only add optional keys: legs and trip tag are those of
    [trip_legs]. *)
Lemma single_plan_itinerary a :
  kw_flight_data (single_plan from_interface a).1 = (trip_legs a).1
  /\ kw_trip (single_plan from_interface a).1
     = (if (trip_legs a).2 then "round-trip" else "one-way").
Proof.
  unfold single_plan.
  destruct (trip_legs a) as [legs rt].
  destruct (cabin_step _ _) as [seat cov1].
  destruct (stops_step _ _) as [ms cov2].
  destruct (_parse_time_window (sa_outbound_times a)) as [dep0 arr0].
  destruct (if rt then _ else _) as [dep1 arr1].
  unfold return_windows_step, _try_kw.
  repeat case_match; simpl; done.
Qed.

Lemma trip_legs_round a :
  (trip_legs a).2 = true ->
  (trip_legs a).1 =
    [mkFlightData (Some (sa_outbound_date a)) (sa_dep a) (sa_arr a);
     mkFlightData (sa_return_date a) (sa_arr a) (sa_dep a)].
Proof. unfold trip_legs. repeat case_match; simpl; done. Qed.

Lemma trip_legs_one_way a :
  (trip_legs a).2 = false ->
  (trip_legs a).1 =
    [mkFlightData (Some (sa_outbound_date a)) (sa_dep a) (sa_arr a)].
Proof. unfold trip_legs. repeat case_match; simpl; done. Qed.

Lemma single_plan_round a :
  kw_trip (single_plan from_interface a).1 = "round-trip" ->
  (trip_legs a).2 = true.
Proof.
  destruct (single_plan_itinerary a) as [_ ->]. by destruct (trip_legs a).2.
Qed.

Lemma trip_legs_round_iff a :
  (trip_legs a).2 = true <->
  sa_type a <> Some "2"
  /\ (sa_type a = Some "1" \/ (sa_return_date a <> None /\ sa_type a = None)).
Proof.
  unfold trip_legs. repeat case_bool_decide; simpl; intuition congruence.
Qed.

End PlanFacts.

(** ** Loops that stop at the first exception *)

Lemma for_each_ok {A B} (f : A -> result B) l bs :
  for_each f l = inr bs <-> Forall2 (fun a b => f a = inr b) l bs.
Proof.
  revert bs. induction l as [|a l IH]; intros bs; simpl.
  - split; [intros [= <-]; constructor | by inversion 1].
  - destruct (f a) as [e|b] eqn:Hfa; simpl.
    + split; [done|]. inversion 1 as [|???? Hb Hrest]; subst.
      rewrite Hfa in Hb. discriminate.
    + destruct (for_each f l) as [e|bs'] eqn:Hl; simpl.
      * split; [done|]. inversion 1 as [|???? Hb Hrest]; subst.
        apply IH in Hrest. discriminate.
      * split.
        -- intros [= <-]. constructor; [done|]. by apply IH.
        -- inversion 1 as [|???? Hb Hrest]; subst.
           apply IH in Hrest. rewrite Hfa in Hb.
           injection Hb as <-. injection Hrest as <-. done.
Qed.

Lemma for_each_length {A B} (f : A -> result B) l bs :
  for_each f l = inr bs -> length bs = length l.
Proof. intros H%for_each_ok. symmetry. by eapply Forall2_length. Qed.


(** ** Inversion of the single-pair branch *)

Section SinglePair.

Variable from_interface : tfs_kwargs -> option string.
Variable date_fromisoformat : string -> bool.
Variable json_loads : string -> option json.

Local Abbreviation build :=
  (build_gf_urls from_interface date_fromisoformat json_loads).
Local Abbreviation single_url :=
  (_build_single_url from_interface date_fromisoformat).

Lemma build_single_pair_inv r res :
  build_single_pair from_interface date_fromisoformat r = inr res ->
  _csv_to_list (departure_id r) <> []
  /\ _csv_to_list (arrival_id r) <> []
  /\ (exists od, outbound_date r = Some od /\ Py.truthy_str od = true)
  /\ (type r = Some "1" -> Py.truthy (return_date r) = true)
  /\ for_each
       (fun pair => single_url
                      (pair_args r (default EmptyString (outbound_date r)) pair))
       (product (_csv_to_list (departure_id r)) (_csv_to_list (arrival_id r)))
     = inr (links res)
  /\ unmatched_global res = sorted_set (request_flags r)
  /\ serpapi_fallback res = build_serpapi_params (request_locals r).
Proof.
  unfold build_single_pair.
  case_bool_decide as Hd; simpl; [done|].
  case_bool_decide as Ha; simpl; [done|].
  destruct (outbound_date r) as [od|] eqn:Hod; simpl; [|done].
  destruct (Py.truthy_str od) eqn:Htod; simpl; [|done].
  case_bool_decide as Ht; simpl.
  - destruct (Py.truthy (return_date r)) eqn:Hrd; simpl; [|done].
    destruct (for_each _ _) as [e|ls] eqn:Hls; simpl; [done|].
    intros [= <-]. simpl. eauto 10.
  - destruct (for_each _ _) as [e|ls] eqn:Hls; simpl; [done|].
    intros [= <-]. simpl. split_and!; eauto; congruence.
Qed.


Lemma build_single_pair_eq r :
  is_multi_city r = false ->
  build r = build_single_pair from_interface date_fromisoformat r.
Proof. unfold build_gf_urls. by intros ->. Qed.

End SinglePair.

(** C2 (round-trip itinerary).  Whenever the single-link builder compiles
    a round trip (the trip tag handed to the encoder is "round-trip"), the
    itinerary handed to the encoder has exactly two legs, the second being
    the first with origin and destination swapped and carrying the return
    date; for a request that [build_gf_urls] accepts on its single-pair
    branch that date is the request's own, non-empty, return date. *)
Theorem round_trip_two_mirrored_legs
    (from_interface : tfs_kwargs -> option string)
    (date_fromisoformat : string -> bool)
    (json_loads : string -> option json) :
  (forall a,
      kw_trip (single_plan from_interface a).1 = "round-trip" ->
      exists l1 l2,
        kw_flight_data (single_plan from_interface a).1 = [l1; l2]
        /\ l1 = mkFlightData (Some (sa_outbound_date a)) (sa_dep a) (sa_arr a)
        /\ fd_from_airport l2 = fd_to_airport l1
        /\ fd_to_airport l2 = fd_from_airport l1
        /\ fd_date l2 = sa_return_date a)
  /\ (forall r res od pair,
      is_multi_city r = false ->
      build_gf_urls from_interface date_fromisoformat json_loads r = inr res ->
      kw_trip (single_plan from_interface (pair_args r od pair)).1
        = "round-trip" ->
      exists rd,
        return_date r = Some rd /\ Py.truthy_str rd = true
        /\ kw_flight_data (single_plan from_interface (pair_args r od pair)).1
           = [mkFlightData (Some od) pair.1 pair.2;
              mkFlightData (Some rd) pair.2 pair.1]).
Proof.
  assert (Hfun : forall a,
      kw_trip (single_plan from_interface a).1 = "round-trip" ->
      kw_flight_data (single_plan from_interface a).1
      = [mkFlightData (Some (sa_outbound_date a)) (sa_dep a) (sa_arr a);
         mkFlightData (sa_return_date a) (sa_arr a) (sa_dep a)]).
  { intros a H. apply single_plan_round in H.
    destruct (single_plan_itinerary from_interface a) as [-> _].
    by apply trip_legs_round. }
  split.
  - intros a H. rewrite (Hfun a H). eauto 10.
  - intros r res od pair Hm Hb H.
    rewrite build_single_pair_eq in Hb by done.
    apply build_single_pair_inv in Hb as (_ & _ & _ & Hret & _).
    rewrite (Hfun _ H). simpl.
    apply single_plan_round, trip_legs_round_iff in H as [_ H]. simpl in H.
    assert (Hrd : Py.truthy (return_date r) = true).
    { destruct H as [H1|[Hsome Hnone]]; [by apply Hret|].
      destruct (Py.truthy (return_date r)); [done|].
      rewrite Hnone in Hsome. by simpl in Hsome. }
    assert (Hc : bool_decide (type r = Some "1")
                 || Py.truthy (return_date r) && bool_decide (type r = None)
                 = true).
    { destruct H as [H1|[_ Hnone]].
      - by rewrite (bool_decide_eq_true_2 _ H1).
      - rewrite Hrd, (bool_decide_eq_true_2 _ Hnone). apply orb_true_r. }
    rewrite Hc. destruct (return_date r) as [rd|]; [|done]. eauto.
Qed.

(** ** Cartesian expansion *)

Lemma product_length {A B} (xs : list A) (ys : list B) :
  length (product xs ys) = (length xs * length ys)%nat.
Proof.
  unfold product. induction xs as [|x xs IH]; simpl; [done|].
  by rewrite length_app, length_map, IH.
Qed.

Lemma product_lookup {A B} (xs : list A) (ys : list B) i j x y :
  xs !! i = Some x -> ys !! j = Some y ->
  product xs ys !! (i * length ys + j)%nat = Some (x, y).
Proof.
  unfold product. revert i. induction xs as [|x' xs IH]; intros i Hx Hy.
  - by rewrite lookup_nil in Hx.
  - destruct i as [|i]; simpl in *.
    + injection Hx as ->. rewrite lookup_app_l.
      * by rewrite list_lookup_fmap, Hy.
      * rewrite length_map. by eapply lookup_lt_Some.
    + rewrite lookup_app_r by (rewrite length_map; lia).
      rewrite length_map.
      replace (length ys + i * length ys + j - length ys)%nat
        with (i * length ys + j)%nat by lia.
      by apply IH.
Qed.


Lemma csv_to_list_join codes :
  Forall clean_code codes -> _csv_to_list (Some (Py.join "," codes)) = codes.
Proof.
  intros Hc. destruct codes as [|c codes]; [done|].
  unfold _csv_to_list.
  destruct (Py.join "," (c :: codes)) as [|ch rest] eqn:Hj.
  { apply join_empty in Hj as ->. apply Forall_cons in Hc as [[Hc _] _]. done. }
  simpl negb. cbv iota. rewrite <- Hj. rewrite split_join; [|done|].
  - clear Hj. induction Hc as [|x l [Hx1 [Hx2 Hx3]] _ IH]; [done|].
    csimpl. rewrite Hx3, Hx1. csimpl. by rewrite IH.
  - eapply Forall_impl; [exact Hc|]. by intros x (_ & ? & _).
Qed.

(** C1 (cartesian expansion).  On its single-pair branch [build_gf_urls]
    returns one link per (origin, destination) pair: with m origin codes
    and n destination codes there are exactly m * n links, and the link
    at position i * n + j is the one built for the i-th origin and the
    j-th destination (destinations vary fastest; both lists keep the
    order in which their codes were written, separated by commas). *)
Theorem cartesian_link_count
    (from_interface : tfs_kwargs -> option string)
    (date_fromisoformat : string -> bool)
    (json_loads : string -> option json) (r : request) (res : aggregate) :
  is_multi_city r = false ->
  build_gf_urls from_interface date_fromisoformat json_loads r = inr res ->
  length (links res)
  = (length (_csv_to_list (departure_id r))
     * length (_csv_to_list (arrival_id r)))%nat
  /\ (forall i j dep arr,
        _csv_to_list (departure_id r) !! i = Some dep ->
        _csv_to_list (arrival_id r) !! j = Some arr ->
        exists link,
          links res !! (i * length (_csv_to_list (arrival_id r)) + j)%nat
          = Some link
          /\ _build_single_url from_interface date_fromisoformat
               (pair_args r (default EmptyString (outbound_date r)) (dep, arr))
             = inr link)
  /\ (forall codes, Forall clean_code codes ->
        _csv_to_list (Some (Py.join "," codes)) = codes).
Proof.
  intros Hm Hb. rewrite build_single_pair_eq in Hb by done.
  apply build_single_pair_inv in Hb as (_ & _ & _ & _ & Hl & _).
  split; [|split].
  - rewrite (for_each_length _ _ _ Hl). apply product_length.
  - intros i j dep arr Hi Hj.
    apply for_each_ok in Hl.
    pose proof (product_lookup _ _ _ _ _ _ Hi Hj) as Hp.
    destruct (Forall2_lookup_l _ _ _ _ _ Hl Hp) as (link & Hlink & Hbuild).
    eauto.
  - apply csv_to_list_join.
Qed.

Lemma cartesian_link_count_witness :
  exists res,
    build_gf_urls accept_all shape_date sample_loads
      (with_endpoints "SYD, CBR" "MEL,ADL" base_request) = inr res
    /\ length (links res) = 4%nat.
Proof.
  destruct (build_gf_urls accept_all shape_date sample_loads
              (with_endpoints "SYD, CBR" "MEL,ADL" base_request))
    as [e|res] eqn:Hb; [vm_compute in Hb; discriminate|].
  exists res. split; [reflexivity|].
  destruct (cartesian_link_count accept_all shape_date sample_loads
              (with_endpoints "SYD, CBR" "MEL,ADL" base_request) res
              eq_refl Hb) as [Hlen _].
  rewrite Hlen. reflexivity.
Defined.

Lemma round_trip_two_mirrored_legs_witness :
  exists rd,
    return_date (with_return_date (Some "2025-08-20") base_request) = Some rd
    /\ kw_flight_data
         (single_plan accept_all
            (pair_args (with_return_date (Some "2025-08-20") base_request)
               "2025-08-15" ("SYD", "MEL"))).1
       = [mkFlightData (Some "2025-08-15") "SYD" "MEL";
          mkFlightData (Some rd) "MEL" "SYD"].
Proof.
  destruct (build_gf_urls accept_all shape_date sample_loads
              (with_return_date (Some "2025-08-20") base_request))
    as [e|res] eqn:Hb; [vm_compute in Hb; discriminate|].
  destruct (proj2 (round_trip_two_mirrored_legs accept_all shape_date
                     sample_loads)
              (with_return_date (Some "2025-08-20") base_request)
              res "2025-08-15" ("SYD", "MEL") eq_refl Hb eq_refl)
    as (rd & Hrd & _ & Hlegs).
  exists rd. split; [exact Hrd | exact Hlegs].
Defined.

(** ** Trip type against return date *)



(** ** Coverage bookkeeping of the single-link builder *)

Section Frame.

Variable from_interface : tfs_kwargs -> option string.

Lemma cov_app_empty_l c : cov_app (mkCoverage [] [] []) c = c.
Proof. by destruct c. Qed.

Lemma cov_app_empty_r c : cov_app c (mkCoverage [] [] []) = c.
Proof. destruct c. unfold cov_app. simpl. by rewrite !app_nil_r. Qed.

Lemma cov_app_assoc c1 c2 c3 :
  cov_app (cov_app c1 c2) c3 = cov_app c1 (cov_app c2 c3).
Proof. unfold cov_app. simpl. by rewrite !app_assoc. Qed.

Lemma try_kw_frame key set kw cov :
  _try_kw from_interface key set (kw, cov)
  = ((_try_kw from_interface key set (kw, mkCoverage [] [] [])).1,
     cov_app cov (_try_kw from_interface key set (kw, mkCoverage [] [] [])).2).
Proof.
  unfold _try_kw, cov_app, add_encoded, add_unmatched. simpl.
  destruct (from_interface (set kw)); simpl; by rewrite ?app_nil_r.
Qed.

Lemma return_windows_frame rt d0 a0 d1 a1 kw cov :
  return_windows_step from_interface rt d0 a0 d1 a1 (kw, cov)
  = ((return_windows_step from_interface rt d0 a0 d1 a1
        (kw, mkCoverage [] [] [])).1,
     cov_app cov (return_windows_step from_interface rt d0 a0 d1 a1
                    (kw, mkCoverage [] [] [])).2).
Proof.
  unfold return_windows_step, cov_app, add_encoded, add_approximated. simpl.
  destruct (rt && _); simpl; [|by rewrite ?app_nil_r; destruct cov].
  destruct (from_interface _); simpl; by rewrite ?app_nil_r.
Qed.

(** The probes never read the coverage: started from [cov] they yield the
    same keyword arguments as started from nothing, and [cov] followed by
    what they record. *)
Lemma probe_filters_frame a rt kw cov :
  probe_filters from_interface a rt (kw, cov)
  = ((probe_filters from_interface a rt (kw, mkCoverage [] [] [])).1,
     cov_app cov
       (probe_filters from_interface a rt (kw, mkCoverage [] [] [])).2).
Proof.
  unfold probe_filters.
  destruct (_parse_time_window (sa_outbound_times a)) as [dep0 arr0].
  destruct (if rt then _ else _) as [dep1 arr1].
  set (e := mkCoverage [] [] []).
  assert (Hstep : forall (f : tfs_kwargs * Coverage -> tfs_kwargs * Coverage)
                         (st0 st : tfs_kwargs * Coverage) c,
             (forall k c', f (k, c') = ((f (k, e)).1, cov_app c' (f (k, e)).2)) ->
             st = (st0.1, cov_app c st0.2) ->
             f st = ((f st0).1, cov_app c (f st0).2)).
  { intros f [k0 c0] st c Hf ->. simpl.
    rewrite (Hf k0 (cov_app c c0)), (Hf k0 c0). simpl.
    by rewrite cov_app_assoc. }
  assert (Hid : forall (st0 st : tfs_kwargs * Coverage) c,
             st = (st0.1, cov_app c st0.2) -> st = (st0.1, cov_app c st0.2))
    by done.
  apply Hstep; [intros; apply return_windows_frame|].
  destruct arr0; [apply Hstep; [intros; apply try_kw_frame|]|].
  all: destruct dep0; [apply Hstep; [intros; apply try_kw_frame|]|].
  all: destruct (sa_exclude_airlines a);
    [|apply Hstep; [intros; apply try_kw_frame|]].
  all: destruct (sa_include_airlines a);
    [|apply Hstep; [intros; apply try_kw_frame|]].
  all: simpl; by rewrite cov_app_empty_r.
Qed.

Lemma single_plan_eq a :
  single_plan from_interface a
  = probe_filters from_interface a (trip_legs a).2
      (base_kwargs a,
       (stops_step (sa_stops a)
          (cabin_step (sa_travel_class a) (mkCoverage [] [] [])).2).2).
Proof.
  unfold single_plan, probe_filters, base_kwargs.
  destruct (trip_legs a) as [legs rt]. simpl.
  destruct (cabin_step _ _) as [seat cov1] eqn:Hc. simpl.
  assert (Hs : (stops_step (sa_stops a) cov1).1
               = (stops_step (sa_stops a) (mkCoverage [] [] [])).1).
  { unfold stops_step. by repeat case_match. }
  rewrite <- Hs.
  destruct (stops_step _ cov1) as [ms cov2]. simpl.
  destruct (_parse_time_window (sa_outbound_times a)) as [dep0 arr0].
  by destruct (if rt then _ else _) as [dep1 arr1].
Qed.

End Frame.

Section PlanSplit.

Variable from_interface : tfs_kwargs -> option string.
Variable date_fromisoformat : string -> bool.

Lemma stops_step_frame s cov :
  (stops_step s cov).2 = cov_app cov (stops_step s (mkCoverage [] [] [])).2.
Proof.
  unfold stops_step, cov_app, add_encoded, add_unmatched.
  repeat case_match; simpl; rewrite ?app_nil_r; by destruct cov.
Qed.

(** The plan of a call: the probes run on the base arguments; the
    coverage is what the cabin step, the stops step and the probes record,
    in that order. *)
Lemma single_plan_split a :
  (single_plan from_interface a).1
  = (probe_filters from_interface a (trip_legs a).2
       (base_kwargs a, mkCoverage [] [] [])).1
  /\ (single_plan from_interface a).2
     = cov_app
         (cov_app (cabin_step (sa_travel_class a) (mkCoverage [] [] [])).2
            (stops_step (sa_stops a) (mkCoverage [] [] [])).2)
         (probe_filters from_interface a (trip_legs a).2
            (base_kwargs a, mkCoverage [] [] [])).2.
Proof.
  rewrite single_plan_eq, probe_filters_frame. simpl.
  by rewrite stops_step_frame.
Qed.


End PlanSplit.


(** ** Unrecognised enumeration codes *)

Section Codes.

Variable from_interface : tfs_kwargs -> option string.

Local Abbreviation plan := (single_plan from_interface).



Variable date_fromisoformat : string -> bool.

Local Abbreviation single_url :=
  (_build_single_url from_interface date_fromisoformat).



End Codes.







(** ** Coverage sets of a link *)

Lemma coverage_names_app c1 c2 :
  coverage_names (cov_app c1 c2) ≡ₚ coverage_names c1 ++ coverage_names c2.
Proof.
  unfold coverage_names, cov_app. simpl. rewrite <- map_app.
  apply Permutation_map. solve_Permutation.
Qed.

Lemma coverage_names_add_encoded l c :
  coverage_names (add_encoded l c) ≡ₚ coverage_names c ++ map entry_name l.
Proof.
  unfold coverage_names, add_encoded. simpl. rewrite <- map_app.
  apply Permutation_map. solve_Permutation.
Qed.

Section CoverageNames.

Variable from_interface : tfs_kwargs -> option string.

Lemma names_unmatched_one e n :
  entry_name e = n ->
  coverage_names (add_unmatched e (mkCoverage [] [] [])) = [n].
Proof. by intros <-. Qed.

Lemma cabin_names tc :
  coverage_names (cabin_step tc (mkCoverage [] [] [])).2 ⊆+ ["travel_class"]
  /\ (Py.truthy tc = true ->
      "travel_class"
      ∈ coverage_names (cabin_step tc (mkCoverage [] [] [])).2).
Proof.
  unfold cabin_step. destruct tc as [tc|]; cbn [snd Py.truthy].
  - destruct (Py.truthy_str tc); cbn [snd].
    + destruct (_TRAVEL_CLASS !! tc); cbn [snd].
      * split; [done|]. intros _. apply list_elem_of_here.
      * rewrite (names_unmatched_one _ "travel_class") by reflexivity.
        split; [done|]. intros _. apply list_elem_of_here.
    + split; [apply submseteq_nil_l|done].
  - split; [apply submseteq_nil_l|done].
Qed.

Lemma stops_names s :
  coverage_names (stops_step s (mkCoverage [] [] [])).2 ⊆+ ["stops"]
  /\ (s <> None ->
      "stops" ∈ coverage_names (stops_step s (mkCoverage [] [] [])).2).
Proof.
  unfold stops_step. destruct s as [s|]; cbn [snd].
  - destruct (_STOPS_MAP !! s); cbn [snd].
    + split; [done|]. intros _. apply list_elem_of_here.
    + rewrite (names_unmatched_one _ "stops") by reflexivity.
      split; [done|]. intros _. apply list_elem_of_here.
  - split; [apply submseteq_nil_l|done].
Qed.

Lemma probe_names a rt kw :
  coverage_names (probe_filters from_interface a rt (kw, mkCoverage [] [] [])).2
  ⊆+ ["include_airlines"; "exclude_airlines"; "dep_time_window";
      "arr_time_window"; "dep_time_windows/arr_time_windows"; "return_times"]
  /\ (sa_include_airlines a <> [] ->
      "include_airlines"
      ∈ coverage_names
          (probe_filters from_interface a rt (kw, mkCoverage [] [] [])).2)
  /\ (sa_exclude_airlines a <> [] ->
      "exclude_airlines"
      ∈ coverage_names
          (probe_filters from_interface a rt (kw, mkCoverage [] [] [])).2).
Proof.
  unfold probe_filters.
  destruct (_parse_time_window (sa_outbound_times a)) as [dep0 arr0].
  destruct (if rt then _ else _) as [dep1 arr1].
  unfold return_windows_step, _try_kw.
  destruct (sa_include_airlines a) as [|i1 il];
    destruct (sa_exclude_airlines a) as [|e1 el];
    destruct dep0, arr0;
    repeat case_match; simpl;
    (split; [by apply (bool_decide_unpack _); vm_compute
            |split; intros ?; try done;
             by apply (bool_decide_unpack _); vm_compute]).
Qed.

(** The names a link built by [_build_single_url] records are drawn from
    [recordable_names], each at most once. *)
Lemma single_plan_names a :
  coverage_names
    (add_encoded ["tfs"; "hl"; "gl"; "currency"]
       (single_plan from_interface a).2)
  ⊆+ recordable_names.
Proof.
  destruct (single_plan_split from_interface a) as [_ ->].
  rewrite coverage_names_add_encoded, !coverage_names_app.
  change recordable_names with
    ((["travel_class"] ++ ["stops"])
     ++ ["include_airlines"; "exclude_airlines"; "dep_time_window";
         "arr_time_window"; "dep_time_windows/arr_time_windows";
         "return_times"]
     ++ ["tfs"; "hl"; "gl"; "currency"]).
  rewrite <- !app_assoc.
  repeat apply submseteq_app; try done.
  - apply cabin_names.
  - apply stops_names.
  - apply probe_names.
Qed.

End CoverageNames.

(** ** Where the links of a result come from *)

Section LinkOrigin.

Variable from_interface : tfs_kwargs -> option string.
Variable date_fromisoformat : string -> bool.
Variable json_loads : string -> option json.

Local Abbreviation build :=
  (build_gf_urls from_interface date_fromisoformat json_loads).
Local Abbreviation single_url :=
  (_build_single_url from_interface date_fromisoformat).

(** Inversion of a successful multi-city call. *)
Lemma build_multi_city_inv r res :
  build_multi_city from_interface date_fromisoformat json_loads r = inr res ->
  exists legs_in legs,
    load_legs json_loads r = inr legs_in
    /\ for_each (check_leg date_fromisoformat) legs_in = inr legs
    /\ serpapi_fallback res = build_serpapi_params (request_locals r)
    /\ ((exists tfs,
           from_interface (multi_city_plan from_interface r legs).1 = Some tfs
           /\ links res
              = [mkLinkOut (gf_url tfs (hl r) (gl r) (currency r))
                   (mkCoverage ["tfs"; "hl"; "gl"; "currency"] [] [])]
           /\ unmatched_global res
              = sorted_set ((multi_city_plan from_interface r legs).2
                            ++ request_flags r))
        \/ (from_interface (multi_city_plan from_interface r legs).1 = None
            /\ for_each (fun l => single_url (fallback_args r l))
                 (take (length legs - 1) legs) = inr (links res)
            /\ unmatched_global res
               = sorted_set (((multi_city_plan from_interface r legs).2
                              ++ [multi_city_note]) ++ request_flags r))).
Proof.
  unfold build_multi_city.
  destruct (load_legs json_loads r) as [e|legs_in] eqn:Hload; [done|]. simpl.
  destruct (for_each _ legs_in) as [e|legs] eqn:Hlegs; [done|]. simpl.
  destruct (multi_city_plan from_interface r legs) as [kw gu] eqn:Hplan.
  simpl. destruct (from_interface kw) as [tfs|] eqn:Henc; simpl.
  - intros [= <-]. exists legs_in, legs. rewrite Hplan. simpl.
    split; [done|]. split; [done|]. split; [done|]. left. eauto.
  - destruct (for_each _ (take _ legs)) as [e|ls] eqn:Hls; [done|]. simpl.
    intros [= <-]. exists legs_in, legs. rewrite Hplan. simpl.
    split; [done|]. split; [done|]. split; [done|]. right. done.
Qed.

Lemma link_origin r res link :
  build r = inr res -> link ∈ links res ->
  coverage link = mkCoverage ["tfs"; "hl"; "gl"; "currency"] [] []
  \/ exists a, single_url a = inr link.
Proof.
  unfold build_gf_urls. destruct (is_multi_city r) eqn:Hm.
  - intros Hb Hin.
    apply build_multi_city_inv in Hb as (legs_in & legs & _ & _ & _ & Hb).
    destruct Hb as [(tfs & _ & Hl & _)|(_ & Hl & _)].
    + rewrite Hl in Hin. apply list_elem_of_singleton in Hin as ->. by left.
    + right. apply for_each_ok in Hl.
      apply list_elem_of_lookup in Hin as [i Hi].
      destruct (Forall2_lookup_r _ _ _ _ _ Hl Hi) as (l & _ & Hp). eauto.
  - intros Hb Hin. right.
    apply build_single_pair_inv in Hb as (_ & _ & _ & _ & Hl & _).
    apply for_each_ok in Hl. apply list_elem_of_lookup in Hin as [i Hi].
    destruct (Forall2_lookup_r _ _ _ _ _ Hl Hi) as (pair & _ & Hp). eauto.
Qed.

End LinkOrigin.

(** ** The fallback projector *)

Lemma foldl_keep_notin kwargs (m : gmap string pyval) k :
  k ∉ kwargs.*1 -> foldl keep_param m kwargs !! k = m !! k.
Proof.
  revert m. induction kwargs as [|[k' v'] kwargs IH]; intros m Hk; [done|].
  simpl. apply not_elem_of_cons in Hk as [Hne Hk]. rewrite IH by done.
  unfold keep_param. simpl. destruct (_ && _); [|done].
  by rewrite lookup_insert_ne.
Qed.

Lemma foldl_keep_in kwargs (m : gmap string pyval) k v :
  NoDup kwargs.*1 -> (k, v) ∈ kwargs ->
  foldl keep_param m kwargs !! k
  = if bool_decide (k ∈ allowed) && not_blank v then Some v else m !! k.
Proof.
  revert m. induction kwargs as [|[k' v'] kwargs IH]; intros m Hnd Hin.
  - by apply elem_of_nil in Hin.
  - simpl in *. apply NoDup_cons in Hnd as [Hk' Hnd].
    apply elem_of_cons in Hin as [[= <- <-]|Hin].
    + rewrite foldl_keep_notin by done. unfold keep_param. simpl.
      destruct (_ && _); [|done]. by rewrite lookup_insert_eq.
    + rewrite IH by done. destruct (_ && _); [done|].
      unfold keep_param. simpl. destruct (_ && _); [|done].
      rewrite lookup_insert_ne; [done|].
      intros ->. apply Hk'. apply list_elem_of_fmap. by exists (k, v).
Qed.

Lemma join_csv_lookup (m : gmap string pyval) key k :
  (forall l, m !! k <> Some (VList l)) ->
  join_csv m key !! k = m !! k
  /\ (forall l, join_csv m key !! k <> Some (VList l)).
Proof.
  intros Hk. unfold join_csv.
  destruct (m !! key) as [[| | | |l]|] eqn:Hkey; try done.
  destruct (decide (key = k)) as [->|Hne].
  - by specialize (Hk l).
  - by rewrite lookup_insert_ne.
Qed.

Lemma request_locals_keys r : NoDup (request_locals r).*1.
Proof. apply (bool_decide_unpack _). vm_compute. reflexivity. Qed.

(** A parameter bound to a non-blank scalar is in the fallback mapping
    with exactly that value; one bound to [None] or to the empty string
    is not in it. *)
Lemma fallback_lookup r k v :
  (k, v) ∈ request_locals r -> k ∈ allowed ->
  (forall l, v <> VList l) ->
  build_serpapi_params (request_locals r) !! k
  = if not_blank v then Some v else None.
Proof.
  intros Hin Hal Hv. unfold build_serpapi_params.
  set (m0 := foldl keep_param ∅ (request_locals r)).
  assert (Hm0 : forall k' v', (k', v') ∈ request_locals r ->
            k' ∈ allowed -> (forall l, v' <> VList l) ->
            m0 !! k' = (if not_blank v' then Some v' else None)
            /\ forall l, m0 !! k' <> Some (VList l)).
  { intros k' v' Hin' Hal' Hv'. unfold m0.
    rewrite (foldl_keep_in _ _ _ _ (request_locals_keys r) Hin').
    rewrite bool_decide_eq_true_2 by done. simpl.
    destruct (not_blank v'); [|by rewrite lookup_empty].
    split; [done|]. intros l [= ->]. by apply (Hv' l). }
  destruct (Hm0 k v Hin Hal Hv) as [Hk Hk'].
  simpl.
  destruct (join_csv_lookup m0 "include_airlines" k Hk') as [E1 N1].
  destruct (join_csv_lookup (join_csv m0 "include_airlines")
              "exclude_airlines" k N1) as [E2 N2].
  assert (He : is_Some (join_csv (join_csv m0 "include_airlines")
                          "exclude_airlines" !! "engine")).
  { assert (Hin_e : ("engine", VStr "google_flights") ∈ request_locals r).
    { apply list_elem_of_In. vm_compute. tauto. }
    destruct (Hm0 "engine" (VStr "google_flights") Hin_e) as [Hg Hg'].
    - apply (bool_decide_unpack _). vm_compute. reflexivity.
    - done.
    - destruct (join_csv_lookup m0 "include_airlines" "engine" Hg')
        as [F1 M1].
      destruct (join_csv_lookup (join_csv m0 "include_airlines")
                  "exclude_airlines" "engine" M1) as [F2 _].
      rewrite F2, F1, Hg. simpl. eauto. }
  destruct He as [ev Hev]. rewrite Hev. by rewrite E2, E1.
Qed.

Lemma sorted_set_elem (l : list string) e : e ∈ sorted_set l <-> e ∈ l.
Proof.
  unfold sorted_set. rewrite merge_sort_Permutation, elem_of_elements.
  apply elem_of_list_to_set.
Qed.

Ltac in_locals :=
  unfold request_locals;
  repeat first [apply list_elem_of_here | apply list_elem_of_further].

Ltac in_allowed := apply (bool_decide_unpack _); vm_compute; reflexivity.

Ltac backed k v :=
  exists v; change (entry_key _) with k;
  split; [in_locals|split; [in_allowed|split; [try done|]]].

Lemma flags_backed r e :
  e ∈ request_flags r ->
  (entry_name e = "sort_by" -> sort_by r <> Some "") ->
  (entry_name e = "emissions" -> emissions r <> Some "") ->
  entry_backed r e.
Proof.
  unfold request_flags, _serpapi_only_flags, flag, entry_backed.
  rewrite !elem_of_app. intros H Hs He.
  destruct H as [H|[H|[H|[H|[H|[H|[H|[H|[H|[H|H]]]]]]]]]];
    match type of H with
    | _ ∈ (if ?c then _ else _) =>
        destruct c eqn:Hc; [|by apply elem_of_nil in H];
        apply list_elem_of_singleton in H; subst e
    end.
  - backed "deep_search" (of_bool (deep_search r)).
    + by destruct (deep_search r).
    + apply bool_decide_eq_true_1 in Hc. by rewrite Hc.
  - backed "show_hidden" (of_bool (show_hidden r)).
    + by destruct (show_hidden r).
    + apply bool_decide_eq_true_1 in Hc. by rewrite Hc.
  - backed "bags" (of_int (bags r)).
    + by destruct (bags r).
    + destruct (bags r); [done|]. simpl in Hc. try case_bool_decide; done.
  - backed "max_price" (of_int (max_price r)).
    + by destruct (max_price r).
    + destruct (max_price r); [done|]. simpl in Hc. try case_bool_decide; done.
  - backed "sort_by" (of_str (sort_by r)).
    + by destruct (sort_by r).
    + specialize (Hs eq_refl).
      destruct (sort_by r) as [[|??]|]; [done|done|].
      simpl in Hc. try case_bool_decide; done.
  - backed "emissions" (of_str (emissions r)).
    + by destruct (emissions r).
    + specialize (He eq_refl).
      destruct (emissions r) as [[|??]|]; [done|done|].
      simpl in Hc. try case_bool_decide; done.
  - backed "layover_duration" (of_str (layover_duration r)).
    + by destruct (layover_duration r).
    + by destruct (layover_duration r).
  - backed "exclude_conns" (of_str (exclude_conns r)).
    + by destruct (exclude_conns r).
    + by destruct (exclude_conns r).
  - backed "max_duration" (of_int (max_duration r)).
    + by destruct (max_duration r).
    + destruct (max_duration r); [done|]. simpl in Hc. try case_bool_decide; done.
  - backed "departure_token" (of_str (departure_token r)).
    + by destruct (departure_token r).
    + by destruct (departure_token r).
  - backed "booking_token" (of_str (booking_token r)).
    + by destruct (booking_token r).
    + by destruct (booking_token r).
Qed.

Lemma csv_nonempty_truthy s : _csv_to_list s <> [] -> Py.truthy s = true.
Proof.
  destruct s as [s|]; simpl; [|done]. by destruct (Py.truthy_str s).
Qed.

Lemma multi_city_plan_backed fi r legs e :
  e ∈ (multi_city_plan fi r legs).2 -> entry_backed r e.
Proof.
  unfold multi_city_plan, airline_probe, entry_backed. intros H.
  assert (He : (e = not_supported "include_airlines"
                /\ _csv_to_list (include_airlines r) <> [])
               \/ (e = not_supported "exclude_airlines"
                   /\ _csv_to_list (exclude_airlines r) <> [])).
  { destruct (_csv_to_list (include_airlines r)) as [|i il];
      destruct (_csv_to_list (exclude_airlines r)) as [|x xl];
      simpl in H; repeat case_match; simpl in H;
      set_solver. }
  destruct He as [[-> Hne]|[-> Hne]]; apply csv_nonempty_truthy in Hne.
  - backed "include_airlines" (of_str (include_airlines r)).
    + by destruct (include_airlines r).
    + by destruct (include_airlines r).
  - backed "exclude_airlines" (of_str (exclude_airlines r)).
    + by destruct (exclude_airlines r).
    + by destruct (exclude_airlines r).
Qed.

Lemma load_legs_truthy jl r legs_in :
  load_legs jl r = inr legs_in -> Py.truthy (multi_city_json r) = true.
Proof. unfold load_legs. by destruct (Py.truthy (multi_city_json r)). Qed.

(** C7, as the code has it.  Every entry of the global unmatched list
    names a request field that the fallback mapping holds with exactly
    the value the caller supplied, provided the entry is not the one of a
    [sort_by] or [emissions] supplied as the empty string.  (The
    multi-city note is backed by the [multi_city_json] field.) *)
Theorem unmatched_fields_in_fallback
    (from_interface : tfs_kwargs -> option string)
    (date_fromisoformat : string -> bool)
    (json_loads : string -> option json)
    (r : request) (res : aggregate) (e : string) :
  build_gf_urls from_interface date_fromisoformat json_loads r = inr res ->
  e ∈ unmatched_global res ->
  (entry_name e = "sort_by" -> sort_by r <> Some "") ->
  (entry_name e = "emissions" -> emissions r <> Some "") ->
  exists v,
    (entry_key e, v) ∈ request_locals r
    /\ v <> VNone
    /\ serpapi_fallback res !! entry_key e = Some v.
Proof.
  intros Hb Hin Hs He.
  assert (Hcore : serpapi_fallback res = build_serpapi_params (request_locals r)
                  /\ entry_backed r e).
  { unfold build_gf_urls in Hb. destruct (is_multi_city r).
    - apply build_multi_city_inv in Hb
        as (legs_in & legs & Hload & _ & Hf & Hcase).
      split; [done|].
      destruct Hcase as [(tfs & _ & _ & Hu)|(_ & _ & Hu)];
        rewrite Hu in Hin; apply (proj1 (sorted_set_elem _ _)) in Hin;
        rewrite !elem_of_app in Hin.
      + destruct Hin as [Hin|Hin];
          [by eapply multi_city_plan_backed|by apply flags_backed].
      + destruct Hin as [[Hin|Hin]|Hin];
          [by eapply multi_city_plan_backed| |by apply flags_backed].
        apply list_elem_of_singleton in Hin. subst e.
        apply load_legs_truthy in Hload.
        unfold entry_backed.
        backed "multi_city_json" (of_str (multi_city_json r)).
        * by destruct (multi_city_json r).
        * by destruct (multi_city_json r).
    - apply build_single_pair_inv in Hb as (_ & _ & _ & _ & _ & Hu & Hf).
      split; [done|]. rewrite Hu in Hin. apply (proj1 (sorted_set_elem _ _)) in Hin.
      by apply flags_backed. }
  destruct Hcore as [-> (v & Hv & Hal & Hl & Hnb)].
  exists v. split; [done|]. split; [by destruct v|].
  by rewrite (fallback_lookup r _ v Hv Hal Hl), Hnb.
Qed.

Lemma unmatched_fields_in_fallback_witness :
  exists res v,
    build_gf_urls accept_all shape_date sample_loads
      (with_sort_by (Some "2") base_request) = inr res
    /\ "sort_by (no URL equivalent)" ∈ unmatched_global res
    /\ serpapi_fallback res !! "sort_by" = Some v.
Proof.
  destruct (build_gf_urls accept_all shape_date sample_loads
              (with_sort_by (Some "2") base_request))
    as [e|res] eqn:Hb; [vm_compute in Hb; discriminate|].
  assert (Hin : "sort_by (no URL equivalent)" ∈ unmatched_global res).
  { rewrite build_single_pair_eq in Hb by reflexivity.
    apply build_single_pair_inv in Hb as (_ & _ & _ & _ & _ & -> & _).
    apply sorted_set_elem, list_elem_of_In. vm_compute. tauto. }
  destruct (unmatched_fields_in_fallback accept_all shape_date sample_loads
              (with_sort_by (Some "2") base_request) res
              "sort_by (no URL equivalent)" Hb Hin)
    as (v & _ & _ & Hv).
  - intros _. discriminate.
  - intros H. vm_compute in H. discriminate.
  - exists res, v. split; [reflexivity|]. split; [exact Hin|exact Hv].
Defined.

(** C7 as stated fails: [sort_by=""] is listed in the global unmatched
    list ([is not None]) but the fallback mapping leaves empty strings
    out. *)
Lemma empty_sort_by_dropped_from_fallback :
  exists res,
    build_gf_urls accept_all shape_date sample_loads
      (with_sort_by (Some "") base_request) = inr res
    /\ unmatched_global res = ["sort_by (no URL equivalent)"]
    /\ serpapi_fallback res !! "sort_by" = None.
Proof.
  destruct (build_gf_urls accept_all shape_date sample_loads
              (with_sort_by (Some "") base_request))
    as [e|res] eqn:Hb; [vm_compute in Hb; discriminate|].
  exists res. split; [reflexivity|].
  rewrite build_single_pair_eq in Hb by reflexivity.
  apply build_single_pair_inv in Hb as (_ & _ & _ & _ & _ & -> & ->).
  split; vm_compute; reflexivity.
Qed.
